(** * rootbench: root/roofit/vectorisedPDFs/benchFitModel.cxx

    A shallow embedding of the RooFit fit-model benchmark and of the
    evaluation core its specification describes.

    Conventions.
    - A C++ [double] is modelled by a real number ([R]): sums, products and
      comparisons are the exact ones, there is no rounding, no infinity and
      no NaN.  Where a constant of the source is evaluated in binary64 this
      is done with the kernel's primitive floats and said so.
    - [ULong_t] and [std::size_t] are modelled by [Z].
    - Objects the source mutates through pointers (the process-wide random
      generator, the parameters of a [RooArgSet], the workspace) are passed
      and returned explicitly.
    - Calls into the RooFit/ROOT libraries are modelled by interfaces (type
      classes with the part of their contract that is used) or by Section
      variables. *)

From Stdlib Require Import Reals Lra Psatz List ZArith Bool String.
From Stdlib Require PrimFloat.
From stdpp Require Import gmap strings.
Import ListNotations.

#[local] Open Scope R_scope.
#[local] Open Scope string_scope.

(** * Part I: the embedding *)

(** ** The random generator: TRandom, reached through RooRandom *)

Module RooRandom.

(** The part of ROOT's [TRandom] interface the benchmark uses.  A generator
    state of type [G] is threaded explicitly: [SetSeed] replaces it,
    [Uniform] returns a draw and the advanced state. *)
Class TRandom (G : Type) := {
  SetSeed : Z -> G -> G;
  Uniform : G -> R * G
}.

(** The contract of [TRandom] relied upon: a draw of [Uniform()] lies in the
    unit interval, and seeding with a nonzero seed fixes the whole state. *)
Class UniformLaw (G : Type) `{TRandom G} : Prop :=
  Uniform_range : forall g : G, 0 <= fst (Uniform g) <= 1.

Class SeedLaw (G : Type) `{TRandom G} : Prop :=
  SetSeed_resets : forall (seed : Z) (g g' : G),
      seed <> 0%Z -> SetSeed seed g = SetSeed seed g'.

(** [RooRandom] keeps one generator for the whole process (a static member
    handed out by [RooRandom::randomGenerator()]). *)
Record Process (G : Type) := mkProcess { _theGenerator : G }.
Arguments mkProcess {G} _.
Arguments _theGenerator {G} _.

Definition randomGenerator {G : Type} (proc : Process G) : G :=
  _theGenerator proc.

(** A small linear congruential generator with modulus 2^31, used to run the
    model on concrete inputs. *)
Definition lcg_modulus : Z := 2147483648.

Definition lcg_next (s : Z) : Z := ((1103515245 * s + 12345) mod lcg_modulus)%Z.

#[export] Instance lcg : TRandom Z := {
  SetSeed := fun seed _ => (seed mod lcg_modulus)%Z;
  Uniform := fun s => (IZR (lcg_next s) / IZR lcg_modulus, lcg_next s)
}.

End RooRandom.

Import RooRandom.

(** ** Parameters: RooAbsRealLValue *)

(** The interface [randomiseParameters] uses after its [static_cast]. *)
Class RooAbsRealLValue (P : Type) := {
  getVal : P -> R;
  getMin : P -> R;
  getMax : P -> R;
  setVal : R -> P -> P
}.

(** What is assumed of [setVal]: it leaves the bounds alone and stores a
    value that lies within them.  (Whether an implementation clips, rejects
    or stores a value outside the bounds is left open.) *)
Class RooAbsRealLValueLaws (P : Type) `{RooAbsRealLValue P} : Prop := {
  getMin_setVal : forall v p, getMin (setVal v p) = getMin p;
  getMax_setVal : forall v p, getMax (setVal v p) = getMax p;
  getVal_setVal : forall v p,
      getMin p <= v <= getMax p -> getVal (setVal v p) = v
}.

(** A variable with a finite range, whose [setVal] clips to the range. *)
Record RangedVar := mkRangedVar { rv_val : R; rv_min : R; rv_max : R }.

Definition clip (lo hi v : R) : R :=
  if Rlt_dec v lo then lo else if Rlt_dec hi v then hi else v.

#[export] Instance RangedVar_lvalue : RooAbsRealLValue RangedVar := {
  getVal := rv_val;
  getMin := rv_min;
  getMax := rv_max;
  setVal := fun v p => mkRangedVar (clip (rv_min p) (rv_max p) v) (rv_min p) (rv_max p)
}.

(** ** randomiseParameters *)

Section RandomiseParameters.
Context {G P : Type} `{TRandom G} `{RooAbsRealLValue P}.

(** The body of the [for] loop over the argument set, one parameter at a
    time, drawing from [random]. *)
Fixpoint randomise_loop (parameters : list P) (random : G) : list P * G :=
  match parameters with
  | [] => ([], random)
  | par :: rest =>
      let (uni, random') := Uniform random in
      let min := getMin par in
      let max := getMax par in
      let par' := setVal (min + uni * (max - min)) par in
      let (rest', random'') := randomise_loop rest random' in
      (par' :: rest', random'')
  end.

(** [void randomiseParameters(const RooArgSet &parameters, ULong_t seed = 0)].
    The generator is the process-wide one; the call returns the updated
    parameters and the process state it leaves behind. *)
Definition randomiseParameters (parameters : list P) (seed : Z)
    (proc : Process G) : list P * Process G :=
  let random := randomGenerator proc in
  let random := if (seed =? 0)%Z then random else SetSeed seed random in
  let (parameters', random') := randomise_loop parameters random in
  (parameters', mkProcess random').

End RandomiseParameters.

(** ** The workspace built by benchModel *)

(** A [RooRealVar] as the factory creates it: a value, an optional range and
    the constant flag.  The class is RooFit's; its three constructors and
    [setVal] are given as RooFit documents them. *)
Record RooRealVar := mkRealVar {
  var_value : R;
  var_range : option (R * R);
  var_constant : bool
}.

(** [name[value]]: a constant without range. *)
Definition RooRealVar_const (value : R) : RooRealVar :=
  mkRealVar value None true.

(** [name[lo,hi]]: a floating variable, created at the middle of its range. *)
Definition RooRealVar_range (lo hi : R) : RooRealVar :=
  mkRealVar ((lo + hi) / 2) (Some (lo, hi)) false.

(** [name[value,lo,hi]]: a floating variable with an initial value. *)
Definition RooRealVar_init (value lo hi : R) : RooRealVar :=
  mkRealVar value (Some (lo, hi)) false.

(** [RooRealVar::setVal]: the value is clipped to the range, if there is one. *)
Definition RooRealVar_setVal (value : R) (var : RooRealVar) : RooRealVar :=
  match var_range var with
  | Some (lo, hi) => mkRealVar (clip lo hi value) (Some (lo, hi)) (var_constant var)
  | None => mkRealVar value None (var_constant var)
  end.

(** The p.d.f. objects the factory strings of the benchmark declare, with
    the names of their arguments in the order the strings give them. *)
Inductive RooAbsPdf :=
| RooGamma (x gamma beta mu : string)
| RooGaussian (x mean sigma : string)
| RooPolynomial (x : string) (coefList : list string)
| RooAddPdf (terms : list (string * string)).

Record RooWorkspace := mkWorkspace {
  ws_vars : gmap string RooRealVar;
  ws_pdfs : gmap string RooAbsPdf
}.

Definition empty_workspace : RooWorkspace := mkWorkspace ∅ ∅.

(** What one factory expression adds to the workspace. *)
Inductive Declaration :=
| DeclVar (name : string) (var : RooRealVar)
| DeclPdf (name : string) (pdf : RooAbsPdf).

Definition declare (w : RooWorkspace) (d : Declaration) : RooWorkspace :=
  match d with
  | DeclVar name var => mkWorkspace (<[name := var]> (ws_vars w)) (ws_pdfs w)
  | DeclPdf name pdf => mkWorkspace (ws_vars w) (<[name := pdf]> (ws_pdfs w))
  end.

(** [w.factory(...)], given by the declarations its string contains, from
    left to right. *)
Definition factory (decls : list Declaration) (w : RooWorkspace) : RooWorkspace :=
  fold_left declare decls w.

(** [w.var(name)->setVal(value)]. *)
Definition var_setVal (name : string) (value : R) (w : RooWorkspace) : RooWorkspace :=
  mkWorkspace (alter (RooRealVar_setVal value) name (ws_vars w)) (ws_pdfs w).

(** A value for every parameter name. *)
Definition ParameterView : Type := string -> R.

(** The current value of every variable of a workspace, by name (0 for a
    name the workspace does not hold). *)
Definition parameter_view (w : RooWorkspace) : ParameterView :=
  fun name => match ws_vars w !! name with
              | Some var => var_value var
              | None => 0
              end.

Definition nEvents : Z := 100000.

(** Lines 68-85 of benchModel: the workspace after the factory calls and the
    five [setVal] calls on the coefficients. *)
Definition benchModel_workspace : RooWorkspace :=
  let w := empty_workspace in
  let w := factory [DeclVar "x" (RooRealVar_range 0 20);
                    DeclVar "g" (RooRealVar_init 20 0.1 40);
                    DeclVar "b" (RooRealVar_init 0.5 0.01 10);
                    DeclVar "m0" (RooRealVar_const 0);
                    DeclPdf "vpdf" (RooGamma "x" "g" "b" "m0")] w in
  let w := factory [DeclVar "m1" (RooRealVar_init 10 0 20);
                    DeclVar "s1" (RooRealVar_init 2 0.1 10);
                    DeclPdf "gpdf" (RooGaussian "x" "m1" "s1")] w in
  let w := factory [DeclVar "m2" (RooRealVar_init 5 0 20);
                    DeclVar "s2" (RooRealVar_init 0.3 0.01 10);
                    DeclPdf "g2" (RooGaussian "x" "m2" "s2")] w in
  let w := factory [DeclVar "m3" (RooRealVar_init 15 0 20);
                    DeclVar "s3" (RooRealVar_init 0.4 0.01 10);
                    DeclPdf "g3" (RooGaussian "x" "m3" "s3")] w in
  let w := factory [DeclVar "a" (RooRealVar_init (-0.01) (-0.05) 0.1);
                    DeclPdf "pol" (RooPolynomial "x" ["a"])] w in
  let w := factory [DeclVar "ns1" (RooRealVar_range 0 1000000000);
                    DeclVar "ns2" (RooRealVar_range 0 10000000000);
                    DeclVar "ng2" (RooRealVar_range 0 1000000000);
                    DeclVar "ng3" (RooRealVar_range 0 10000000000);
                    DeclVar "npol" (RooRealVar_range 0 10000000000);
                    DeclPdf "model" (RooAddPdf [("ns1", "vpdf"); ("ns2", "gpdf");
                                                ("ng2", "g2"); ("ng3", "g3");
                                                ("npol", "pol")])] w in
  let w := var_setVal "ns1" (0.2 * IZR nEvents) w in
  let w := var_setVal "ns2" (0.3 * IZR nEvents) w in
  let w := var_setVal "ng2" (0.1 * IZR nEvents) w in
  let w := var_setVal "ng3" (0.1 * IZR nEvents) w in
  let w := var_setVal "npol" (0.3 * IZR nEvents) w in
  w.

(** The five products of lines 81-85 as the machine computes them, in
    binary64 ([nEvents] converted to [double] first). *)
Module Binary64.
Import PrimFloat.
#[local] Set Warnings "-inexact-float".

Definition nEvents_double : float := 100000%float.

Definition coefficient_values : list float :=
  [ (0.2 * nEvents_double)%float; (0.3 * nEvents_double)%float;
    (0.1 * nEvents_double)%float; (0.1 * nEvents_double)%float;
    (0.3 * nEvents_double)%float ].

Definition sum_left_to_right (l : list float) : float :=
  fold_left PrimFloat.add l 0%float.
End Binary64.

(** ** benchModel: the generated data set and the timed loop

    The first statement of benchModel lowers the verbosity of RooFit's
    message service; it has no part in what follows and is left out. *)

Inductive RunConfig_t := fitScalar | fitCpu | fitCuda.

(** The enumerators' values, and the [static_cast] from [state.range(0)]. *)
Definition RunConfig_value (c : RunConfig_t) : Z :=
  match c with
  | fitScalar => 0
  | fitCpu => 1
  | fitCuda => 2
  end.

Definition RunConfig_cast (range0 : Z) : option RunConfig_t :=
  if (range0 =? 0)%Z then Some fitScalar
  else if (range0 =? 1)%Z then Some fitCpu
  else if (range0 =? 2)%Z then Some fitCuda
  else None.

(** The command arguments handed to [fitTo]. *)
Inductive RooCmdArg :=
| Minimizer (type : string)
| PrintLevel (level : Z)
| BatchMode (mode : string).

(** A data set over the single observable [x]. *)
Definition RooDataSet : Type := list R.

(** The calls benchModel makes into RooFit after the workspace is built. *)
Inductive LibraryCall :=
| CallGenerate (pdf : string) (whatVars : list string) (nEvents : Z)
| CallFitTo (pdf : string) (args : list RooCmdArg).

Section BenchModel.
Context {G : Type}.

(** Everything a library call can reach: the workspace (the model and its
    parameters), the data set, and the process-wide generator. *)
Record World := mkWorld {
  world_ws : RooWorkspace;
  world_data : RooDataSet;
  world_proc : Process G
}.

(** [RooAbsPdf::generate] and [RooAbsPdf::fitTo] belong to RooFit. *)
Variable generate : string -> list string -> Z -> RooWorkspace -> Process G ->
                    RooDataSet * Process G.
Variable fitTo : string -> list RooCmdArg -> World -> World.

(** The state of one run of benchModel: the world and the library calls made
    so far, oldest first. *)
Record Run := mkRun { run_world : World; run_calls : list LibraryCall }.

Definition call_fitTo (pdf : string) (args : list RooCmdArg) (r : Run) : Run :=
  mkRun (fitTo pdf args (run_world r)) (run_calls r ++ [CallFitTo pdf args]).

(** The body of [for (auto _ : state)]. *)
Definition loop_body (runConfig : option RunConfig_t) (r : Run) : Run :=
  match runConfig with
  | Some fitScalar =>
      call_fitTo "model" [Minimizer "Minuit2"; PrintLevel (-1)] r
  | Some fitCpu =>
      call_fitTo "model" [BatchMode "cpu"; Minimizer "Minuit2"; PrintLevel (-1)] r
  | Some fitCuda =>
      call_fitTo "model" [BatchMode "cuda"; Minimizer "Minuit2"; PrintLevel (-1)] r
  | None => r
  end.

Fixpoint iterate (n : nat) (runConfig : option RunConfig_t) (r : Run) : Run :=
  match n with
  | O => r
  | S n' => iterate n' runConfig (loop_body runConfig r)
  end.

(** The run up to the loop: the workspace is built and the data generated. *)
Definition benchModel_setup (proc : Process G) : Run :=
  let w := benchModel_workspace in
  let (data, proc') := generate "model" ["x"] nEvents w proc in
  mkRun (mkWorld w data proc') [CallGenerate "model" ["x"] nEvents].

(** [static void benchModel(benchmark::State &state)]: [range0] is
    [state.range(0)] and [iterations] the number of times the harness lets
    the loop run. *)
Definition benchModel (range0 : Z) (iterations : nat) (proc : Process G) : Run :=
  let runConfig := RunConfig_cast range0 in
  iterate iterations runConfig (benchModel_setup proc).

End BenchModel.

Arguments World : clear implicits.
Arguments Run : clear implicits.

(** ** The registered benchmarks *)

Inductive TimeUnit := kNanosecond | kMicrosecond | kMillisecond | kSecond.

Record Benchmark := mkBenchmark {
  bm_name : string;
  bm_unit : TimeUnit;
  bm_args : list Z
}.

(** The three [BENCHMARK(benchModel)] lines; the last one is compiled only
    under [#ifdef R__HAS_CUDA]. *)
Definition registered (R__HAS_CUDA : bool) : list Benchmark :=
  [ mkBenchmark "fit_Scalar" kMillisecond [RunConfig_value fitScalar];
    mkBenchmark "fit_CPU" kMillisecond [RunConfig_value fitCpu] ]
  ++ (if R__HAS_CUDA
      then [ mkBenchmark "fit_CUDA" kMillisecond [RunConfig_value fitCuda] ]
      else []).

(** [state.range(0)] of a registered benchmark. *)
Definition range0 (b : Benchmark) : Z := nth 0 (bm_args b) 0%Z.

(** Selecting a benchmark by its name among the registered ones. *)
Definition select (R__HAS_CUDA : bool) (name : string) : option Benchmark :=
  find (fun b => String.eqb name (bm_name b)) (registered R__HAS_CUDA).

(** What asking for a benchmark by name comes to.  The benchmark either is
    among the registered ones or is not; [StrategyUnavailableError] is the
    report the specification (section 7) asks for, which no line of the
    source produces. *)
Inductive Selection :=
| Selected (b : Benchmark)
| NotRegistered
| StrategyUnavailableError.

Definition request (R__HAS_CUDA : bool) (name : string) : Selection :=
  match select R__HAS_CUDA name with
  | Some b => Selected b
  | None => NotRegistered
  end.

(** The batch mode a list of [fitTo] arguments asks for, if any. *)
Fixpoint batchMode_of (args : list RooCmdArg) : option string :=
  match args with
  | [] => None
  | BatchMode mode :: _ => Some mode
  | _ :: rest => batchMode_of rest
  end.

(** The batch mode that belongs to each run configuration. *)
Definition batchMode_for (c : RunConfig_t) : option string :=
  match c with
  | fitScalar => None
  | fitCpu => Some "cpu"
  | fitCuda => Some "cuda"
  end.

(** ** The evaluation core beneath the benchmark

    The densities, the mixture and the likelihood reduction are computed by
    RooFit, which benchModel only calls ([w.factory], [pdf.fitTo]); none of
    that code is part of the repository.  The definitions of this module
    follow the specification (sections 3 and 4). *)

Module Core.

(** Modelled from the spec: the Component Density tag of section 3 with the
    four families of section 4.1, each holding the names of the parameters
    it consumes (the repository has only the factory strings naming them). *)
Inductive ComponentDensity :=
| Gaussian (mean sigma : string)
| Gamma (shape scale shift : string)
| Polynomial (coefficients : list string)
| Exponential (rate : string).

(** Modelled from the spec: a Mixture Model is an ordered set of (Component
    Density, coefficient parameter) pairs (section 3); its composition is
    RooFit's [RooAddPdf], absent from the repository. *)
Definition MixtureModel : Type := list (ComponentDensity * string).


Section Densities.

(** The logarithm of the Gamma function, from the mathematical library. *)
Variable lgamma : R -> R.

(** Modelled from the spec: [evaluate] of the Gaussian family (section 4.1,
    Gaussian(mean, sigma)); the class behind [Gaussian::gpdf] is RooFit's,
    whose unnormalised shape [exp(-0.5*arg*arg/(sig*sig))] is taken. *)
Definition gaussian_evaluate (x mean sigma : R) : R :=
  let arg := x - mean in
  let sig := sigma in
  exp ((-0.5) * arg * arg / (sig * sig)).

(** Modelled from the spec: the closed form of the Gamma family (section
    4.1, Gamma(shape, scale, shift)) on and inside its support; the density
    is ROOT's [gamma_pdf(x, alpha, theta, x0)], absent from the repository. *)
Definition gamma_pdf (x alpha theta x0 : R) : R :=
  if Rlt_dec (x - x0) 0 then 0
  else if Req_dec_T (x - x0) 0 then (if Req_dec_T alpha 1 then 1 / theta else 0)
  else if Req_dec_T alpha 1 then exp (- (x - x0) / theta) / theta
  else exp ((alpha - 1) * ln ((x - x0) / theta) - (x - x0) / theta - lgamma alpha) / theta.

(** Modelled from the spec: [evaluate] of the Gamma family, exactly 0
    outside the support (section 4.1); the class behind [Gamma::vpdf] is
    RooFit's, which evaluates ROOT's [GammaDist(x, gamma, mu, beta)]: 0 for
    an observation below the shift and for a shape or scale that is not
    positive. *)
Definition GammaDist (x gamma mu beta : R) : R :=
  if Rlt_dec x mu then 0
  else if Rle_dec gamma 0 then 0
  else if Rle_dec beta 0 then 0
  else gamma_pdf x gamma beta mu.

(** Modelled from the spec: the value of the ordered coefficients of a
    Polynomial (section 4.1) by Horner's scheme; the repository holds no
    density code. *)
Fixpoint horner (coefs : list R) (x : R) : R :=
  match coefs with
  | [] => 0
  | c :: rest => c + x * horner rest x
  end.

(** Modelled from the spec: [evaluate] of the Polynomial family (section
    4.1, Polynomial(ordered coefficients)); the class behind
    [Polynomial::pol(x,a)] is RooFit's, whose convention is taken: the
    constant term is 1 and the listed coefficients start at order 1. *)
Definition polynomial_evaluate (x : R) (coefs : list R) : R :=
  1 + x * horner coefs x.

(** Modelled from the spec: [evaluate] of the Exponential family (section
    4.1, Exponential(rate)); no code of the repository evaluates it. *)
Definition exponential_evaluate (x rate : R) : R :=
  exp (rate * x).

(** Modelled from the spec: the contract
    [evaluate(observation, params) -> double] of section 4.1, by family;
    the repository holds no density code. *)
Definition evaluate (c : ComponentDensity) (observation : R)
    (params : ParameterView) : R :=
  match c with
  | Gaussian mean sigma =>
      gaussian_evaluate observation (params mean) (params sigma)
  | Gamma shape scale shift =>
      GammaDist observation (params shape) (params shift) (params scale)
  | Polynomial coefficients =>
      polynomial_evaluate observation (map params coefficients)
  | Exponential rate =>
      exponential_evaluate observation (params rate)
  end.




End Densities.

(** Modelled from the spec: the Component Density a declared p.d.f. stands
    for (sections 3 and 6); the model builder that reads the factory
    strings is RooFit's, outside the repository. *)
Definition component_of (pdf : RooAbsPdf) : option ComponentDensity :=
  match pdf with
  | RooGamma _ gamma beta mu => Some (Gamma gamma beta mu)
  | RooGaussian _ mean sigma => Some (Gaussian mean sigma)
  | RooPolynomial _ coefList => Some (Polynomial coefList)
  | RooAddPdf _ => None
  end.

(** Modelled from the spec: the finalized Mixture Model graph the model
    builder hands to the core (section 6) for a [SUM::] declaration of the
    workspace, its (component, coefficient) pairs in the declared order. *)
Definition modelGraph (w : RooWorkspace) (name : string) : option MixtureModel :=
  match ws_pdfs w !! name with
  | Some (RooAddPdf terms) =>
      mapM (fun term : string * string =>
              match ws_pdfs w !! snd term with
              | Some pdf =>
                  match component_of pdf with
                  | Some c => Some (c, fst term)
                  | None => None
                  end
              | None => None
              end) terms
  | _ => None
  end.

Section Reducer.

(** The configured minimum floor of section 4.1 (for instance 1e-300). *)
Variable floor : R.





End Reducer.

End Core.

(** ** Vocabulary of the statements *)

(** What the loop of randomiseParameters does to one parameter: the bounds
    stay, and when they are ordered the new value is a point
    [min + uni * (max - min)] with [uni] in the unit interval, hence within
    the bounds. *)
Definition randomised {P : Type} `{RooAbsRealLValue P} (par par' : P) : Prop :=
  getMin par' = getMin par /\
  getMax par' = getMax par /\
  (getMin par <= getMax par ->
   (exists uni, 0 <= uni <= 1 /\
                getVal par' = getMin par + uni * (getMax par - getMin par)) /\
   getMin par' <= getVal par' <= getMax par').

(** A value a variable admits: the declared one if the variable is constant,
    one within the range if it has a range. *)
Definition var_admits (var : RooRealVar) (value : R) : Prop :=
  (var_constant var = true -> value = var_value var) /\
  (forall lo hi, var_range var = Some (lo, hi) -> lo <= value <= hi).

(** A parameter vector the workspace admits (the Parameter invariant of
    section 3 of the specification). *)
Definition admissible (w : RooWorkspace) (params : ParameterView) : Prop :=
  forall name var, ws_vars w !! name = Some var -> var_admits var (params name).


(** The arguments each run configuration passes to [fitTo]. *)
Definition fit_args (c : RunConfig_t) : list RooCmdArg :=
  match c with
  | fitScalar => [Minimizer "Minuit2"; PrintLevel (-1)]
  | fitCpu => [BatchMode "cpu"; Minimizer "Minuit2"; PrintLevel (-1)]
  | fitCuda => [BatchMode "cuda"; Minimizer "Minuit2"; PrintLevel (-1)]
  end.

(** The calls a run makes in its loop, for a decoded run configuration. *)
Definition loop_calls (runConfig : option RunConfig_t) (iterations : nat)
    : list LibraryCall :=
  match runConfig with
  | Some c => repeat (CallFitTo "model" (fit_args c)) iterations
  | None => []
  end.

(** The number of [generate] calls among the calls of a run. *)
Definition is_generate (call : LibraryCall) : bool :=
  match call with
  | CallGenerate _ _ _ => true
  | CallFitTo _ _ => false
  end.

Definition count_generate (calls : list LibraryCall) : nat :=
  length (List.filter is_generate calls).

(** The variables of the workspace benchModel builds, with the values the
    five [setVal] calls leave. *)
Definition benchModel_variables : list (string * RooRealVar) :=
  [ ("x", RooRealVar_range 0 20);
    ("g", RooRealVar_init 20 0.1 40);
    ("b", RooRealVar_init 0.5 0.01 10);
    ("m0", RooRealVar_const 0);
    ("m1", RooRealVar_init 10 0 20);
    ("s1", RooRealVar_init 2 0.1 10);
    ("m2", RooRealVar_init 5 0 20);
    ("s2", RooRealVar_init 0.3 0.01 10);
    ("m3", RooRealVar_init 15 0 20);
    ("s3", RooRealVar_init 0.4 0.01 10);
    ("a", RooRealVar_init (-0.01) (-0.05) 0.1);
    ("ns1", RooRealVar_setVal (0.2 * IZR nEvents) (RooRealVar_range 0 1000000000));
    ("ns2", RooRealVar_setVal (0.3 * IZR nEvents) (RooRealVar_range 0 10000000000));
    ("ng2", RooRealVar_setVal (0.1 * IZR nEvents) (RooRealVar_range 0 1000000000));
    ("ng3", RooRealVar_setVal (0.1 * IZR nEvents) (RooRealVar_range 0 10000000000));
    ("npol", RooRealVar_setVal (0.3 * IZR nEvents) (RooRealVar_range 0 10000000000)) ].

(** The mixture graph of [SUM::model(...)]. *)
Definition benchModel_model : Core.MixtureModel :=
  [ (Core.Gamma "g" "b" "m0", "ns1");
    (Core.Gaussian "m1" "s1", "ns2");
    (Core.Gaussian "m2" "s2", "ng2");
    (Core.Gaussian "m3" "s3", "ng3");
    (Core.Polynomial ["a"], "npol") ].



(** The generator after [n] draws. *)
Fixpoint draws {G : Type} `{TRandom G} (n : nat) (g : G) : G :=
  match n with
  | O => g
  | S n' => draws n' (snd (Uniform g))
  end.

(** A stand-in for RooFit used to run the model: [generate] returns the
    asked number of events, [fitTo] moves a parameter. *)
Definition toy_generate (pdf : string) (whatVars : list string) (n : Z)
    (w : RooWorkspace) (proc : Process Z) : RooDataSet * Process Z :=
  (repeat 1 (Z.to_nat n), proc).

Definition toy_fitTo (pdf : string) (args : list RooCmdArg) (w : World Z) : World Z :=
  mkWorld (var_setVal "m1" 9 (world_ws w)) (world_data w) (world_proc w).

(** Two parameters with the same, ordered bounds. *)
Definition same_bounds {P : Type} `{RooAbsRealLValue P} (par par' : P) : Prop :=
  getMin par = getMin par' /\ getMax par = getMax par' /\ getMin par <= getMax par.

(** The arguments of a [fitTo] call other than its batch mode. *)
Definition is_batchMode (arg : RooCmdArg) : bool :=
  match arg with
  | BatchMode _ => true
  | _ => false
  end.

Definition without_batchMode (args : list RooCmdArg) : list RooCmdArg :=
  List.filter (fun arg => negb (is_batchMode arg)) args.

(** The names a declared p.d.f. refers to: variables, and other p.d.f.s. *)
Definition pdf_variables (pdf : RooAbsPdf) : list string :=
  match pdf with
  | RooGamma x gamma beta mu => [x; gamma; beta; mu]
  | RooGaussian x mean sigma => [x; mean; sigma]
  | RooPolynomial x coefList => x :: coefList
  | RooAddPdf terms => List.map fst terms
  end.

Definition pdf_components (pdf : RooAbsPdf) : list string :=
  match pdf with
  | RooAddPdf terms => List.map snd terms
  | _ => []
  end.

(** The p.d.f. objects of the workspace benchModel builds. *)
Definition benchModel_pdfs : list (string * RooAbsPdf) :=
  [ ("vpdf", RooGamma "x" "g" "b" "m0");
    ("gpdf", RooGaussian "x" "m1" "s1");
    ("g2", RooGaussian "x" "m2" "s2");
    ("g3", RooGaussian "x" "m3" "s3");
    ("pol", RooPolynomial "x" ["a"]);
    ("model", RooAddPdf [("ns1", "vpdf"); ("ns2", "gpdf"); ("ng2", "g2");
                         ("ng3", "g3"); ("npol", "pol")]) ].

(** Line 51 of randomiseParameters in binary64: the value handed to
    [setVal]. *)
Module Binary64Randomise.
Import PrimFloat.

Definition randomised_value (min max uni : float) : float :=
  (min + uni * (max - min))%float.

End Binary64Randomise.

(** * Part II: properties *)

(** ** randomiseParameters *)

Module RandomiseFacts.

(** The toy generator and the clipping variable meet their contracts. *)
Lemma lcg_next_range (s : Z) : (0 <= lcg_next s < lcg_modulus)%Z.
Proof. unfold lcg_next, lcg_modulus. apply Z.mod_pos_bound. lia. Qed.

#[export] Instance lcg_uniform : UniformLaw Z.
Proof.
  intros s. cbn [Uniform lcg fst].
  pose proof (lcg_next_range s) as [Hlo Hhi].
  apply IZR_le in Hlo. apply IZR_lt in Hhi.
  assert (0 < IZR lcg_modulus) by (unfold lcg_modulus; lra).
  split.
  - apply Rmult_le_pos; [lra | left; now apply Rinv_0_lt_compat].
  - apply Rmult_le_reg_r with (IZR lcg_modulus); [lra|].
    unfold Rdiv. rewrite Rmult_assoc, Rinv_l by lra. lra.
Qed.

#[export] Instance lcg_seed : SeedLaw Z.
Proof. intros seed g g' _. reflexivity. Qed.

Lemma clip_id (lo hi v : R) : lo <= v <= hi -> clip lo hi v = v.
Proof.
  intros [Hlo Hhi]. unfold clip.
  destruct (Rlt_dec v lo); [lra|]. destruct (Rlt_dec hi v); [lra|]. reflexivity.
Qed.

Lemma clip_range (lo hi v : R) : lo <= hi -> lo <= clip lo hi v <= hi.
Proof.
  intros Hle. unfold clip.
  destruct (Rlt_dec v lo); [lra|]. destruct (Rlt_dec hi v); lra.
Qed.

#[export] Instance RangedVar_laws : RooAbsRealLValueLaws RangedVar.
Proof.
  split.
  - reflexivity.
  - reflexivity.
  - intros v p Hv. cbn in *. now apply clip_id.
Qed.

(** A point of the segment from [min] to [max] lies between its ends. *)
Lemma segment_within (min max uni : R) :
  0 <= uni <= 1 -> min <= max -> min <= min + uni * (max - min) <= max.
Proof. intros [H0 H1] Hle. split; nra. Qed.

Section Bounds.
Context {G P : Type} `{UniformLaw G} `{RooAbsRealLValueLaws P}.

Lemma randomise_loop_randomised (parameters : list P) :
  forall random : G,
    Forall2 randomised parameters (fst (randomise_loop parameters random)).
Proof.
  induction parameters as [|par rest IH]; intros random; cbn [randomise_loop].
  - constructor.
  - pose proof (Uniform_range random) as Huni.
    destruct (Uniform random) as [uni random']. cbn [fst] in Huni.
    specialize (IH random').
    destruct (randomise_loop rest random') as [rest' random'']. cbn [fst] in *.
    constructor; [|exact IH].
    unfold randomised. rewrite getMin_setVal, getMax_setVal.
    split; [reflexivity|]. split; [reflexivity|].
    intros Hle.
    pose proof (segment_within _ _ _ Huni Hle) as Hseg.
    rewrite (getVal_setVal _ _ Hseg).
    split; [|exact Hseg]. exists uni. split; [exact Huni | reflexivity].
Qed.

(** C9: randomiseParameters keeps every parameter within its bounds.  For
    every parameter of the set the bounds are unchanged, and if its minimum
    is at most its maximum, the value after the call is
    [min + uni * (max - min)] for a draw [uni] of the unit interval and lies
    in [[min, max]]; this holds for every seed and every state of the
    generator. *)
Theorem randomiseParameters_within_bounds
    (parameters : list P) (seed : Z) (proc : Process G) :
  Forall2 randomised parameters (fst (randomiseParameters parameters seed proc)).
Proof.
  unfold randomiseParameters.
  set (random := if (seed =? 0)%Z then _ else _).
  pose proof (randomise_loop_randomised parameters random) as Hloop.
  destruct (randomise_loop parameters random) as [parameters' random'].
  exact Hloop.
Qed.

End Bounds.

Lemma randomiseParameters_within_bounds_witness :
  Forall2 randomised
    [mkRangedVar 0 (-1) 1; mkRangedVar 5 0 20]
    (fst (randomiseParameters [mkRangedVar 0 (-1) 1; mkRangedVar 5 0 20] 1337
            (mkProcess 42%Z))).
Proof.
  exact (randomiseParameters_within_bounds (G := Z) (P := RangedVar)
           [mkRangedVar 0 (-1) 1; mkRangedVar 5 0 20] 1337 (mkProcess 42%Z)).
Defined.

(** *** The generator is the process-wide one *)

Lemma lcg_next_1 : lcg_next 1 = 1103527590%Z.
Proof. reflexivity. Qed.

Lemma lcg_next_2 : lcg_next 2 = 59559187%Z.
Proof. reflexivity. Qed.

(** With the default seed 0 the values assigned depend on the state the
    process-wide generator happens to be in, and a seeded call leaves that
    generator in another state than it found it: the generator is neither
    passed in explicitly nor private to the call. *)
Lemma randomiseParameters_uses_process_generator :
  map getVal (fst (randomiseParameters [mkRangedVar 0 0 1] 0 (mkProcess 1%Z)))
  <> map getVal (fst (randomiseParameters [mkRangedVar 0 0 1] 0 (mkProcess 2%Z)))
  /\ snd (randomiseParameters [mkRangedVar 0 0 1] 1337 (mkProcess 1%Z))
     <> mkProcess 1%Z.
Proof.
  split.
  - cbv [randomiseParameters randomise_loop randomGenerator _theGenerator
         Z.eqb Uniform lcg fst map getVal getMin getMax setVal RangedVar_lvalue
         rv_val rv_min rv_max].
    rewrite lcg_next_1, lcg_next_2. unfold lcg_modulus.
    rewrite !clip_id by lra.
    intros Heq. injection Heq as Heq. lra.
  - cbv [randomiseParameters randomise_loop randomGenerator _theGenerator
         Z.eqb Uniform SetSeed lcg snd].
    intros Heq. injection Heq as Heq. vm_compute in Heq. discriminate Heq.
Qed.

Section Seeded.
Context {G P : Type} `{SeedLaw G} `{RooAbsRealLValue P}.

(** C10 (amended): randomiseParameters draws from the process-wide
    generator of RooRandom, which it reseeds first when the seed is not 0.
    Two calls with the same nonzero seed and the same parameter set
    therefore assign identical values to every parameter, whatever state
    earlier draws left the generator in, and leave it in the same state. *)
Theorem randomiseParameters_seeded_reproducible
    (parameters : list P) (seed : Z) (proc proc' : Process G) :
  seed <> 0%Z ->
  randomiseParameters parameters seed proc
  = randomiseParameters parameters seed proc'.
Proof.
  intros Hseed. unfold randomiseParameters.
  destruct (Z.eqb_spec seed 0) as [Heq|_]; [contradiction|].
  now rewrite (SetSeed_resets seed (randomGenerator proc) (randomGenerator proc') Hseed).
Qed.

End Seeded.

Lemma randomiseParameters_seeded_reproducible_witness :
  randomiseParameters [mkRangedVar 0 0 1; mkRangedVar 3 2 4] 1337 (mkProcess 1%Z)
  = randomiseParameters [mkRangedVar 0 0 1; mkRangedVar 3 2 4] 1337 (mkProcess 2%Z).
Proof.
  apply (randomiseParameters_seeded_reproducible (G := Z) (P := RangedVar)).
  discriminate.
Defined.

(** *** One draw per parameter *)

Section Draws.
Context {G P : Type} `{TRandom G} `{RooAbsRealLValue P}.

Lemma randomise_loop_draws (parameters : list P) :
  forall random : G,
    length (fst (randomise_loop parameters random)) = length parameters /\
    snd (randomise_loop parameters random) = draws (length parameters) random.
Proof.
  induction parameters as [|par rest IH]; intros random; cbn [randomise_loop].
  - split; reflexivity.
  - cbn [length draws].
    destruct (Uniform random) as [uni random']. cbn [snd].
    specialize (IH random').
    destruct (randomise_loop rest random') as [rest' random''].
    cbn [fst snd length] in *. destruct IH as [Hlen Hgen].
    split; [now rewrite Hlen | exact Hgen].
Qed.

(** randomiseParameters returns as many parameters as it was given and
    leaves the process-wide generator advanced by one draw per parameter,
    counted from the seeded state when the seed is not 0 and from the state
    it found otherwise. *)
Theorem randomiseParameters_draws
    (parameters : list P) (seed : Z) (proc : Process G) :
  length (fst (randomiseParameters parameters seed proc)) = length parameters /\
  snd (randomiseParameters parameters seed proc)
  = mkProcess (draws (length parameters)
                 (if (seed =? 0)%Z then randomGenerator proc
                  else SetSeed seed (randomGenerator proc))).
Proof.
  unfold randomiseParameters.
  set (random := if (seed =? 0)%Z then _ else _).
  destruct (randomise_loop_draws parameters random) as [Hlen Hgen].
  destruct (randomise_loop parameters random) as [parameters' random'].
  cbn [fst snd] in *. split; [exact Hlen | now rewrite Hgen].
Qed.

End Draws.

End RandomiseFacts.

(** ** The workspace and the run of benchModel *)

Module BenchFacts.
Import RandomiseFacts.

Lemma benchModel_workspace_vars :
  ws_vars benchModel_workspace = list_to_map benchModel_variables.
Proof. reflexivity. Qed.

Lemma benchModel_workspace_model :
  Core.modelGraph benchModel_workspace "model" = Some benchModel_model.
Proof. reflexivity. Qed.

Lemma benchModel_var_listed (name : string) (var : RooRealVar) :
  ws_vars benchModel_workspace !! name = Some var ->
  (name, var) ∈ benchModel_variables.
Proof.
  rewrite benchModel_workspace_vars. apply elem_of_list_to_map_2.
Qed.

Ltac solve_var_admits :=
  split;
  [ intros Hc; cbn in Hc; try discriminate Hc; reflexivity
  | intros lo hi Hr; cbn in Hr; try discriminate Hr;
    injection Hr as <- <-; cbn [var_value RooRealVar_setVal RooRealVar_range
                                 RooRealVar_init var_range];
    try (apply clip_range; lra); lra ].

(** Every variable is created, and left by the [setVal] calls, with a value
    it admits. *)
Lemma benchModel_variables_admit :
  Forall (fun nv => var_admits (snd nv) (var_value (snd nv))) benchModel_variables.
Proof.
  unfold benchModel_variables.
  repeat (constructor; [cbn [snd]; solve_var_admits|]).
  constructor.
Qed.

Lemma benchModel_configured_admissible :
  admissible benchModel_workspace (parameter_view benchModel_workspace).
Proof.
  intros name var Hlook. unfold parameter_view. rewrite Hlook.
  apply benchModel_var_listed in Hlook.
  pose proof benchModel_variables_admit as Hall.
  rewrite Forall_forall in Hall. exact (Hall _ Hlook).
Qed.

(** The values the five [setVal] calls leave in the coefficients: none of
    them is clipped. *)
Lemma benchModel_coefficient_values :
  map (parameter_view benchModel_workspace) ["ns1"; "ns2"; "ng2"; "ng3"; "npol"]
  = [20000; 30000; 10000; 10000; 30000].
Proof.
  cbv [map parameter_view].
  change (ws_vars benchModel_workspace !! "ns1")
    with (Some (RooRealVar_setVal (0.2 * IZR nEvents) (RooRealVar_range 0 1000000000))).
  change (ws_vars benchModel_workspace !! "ns2")
    with (Some (RooRealVar_setVal (0.3 * IZR nEvents) (RooRealVar_range 0 10000000000))).
  change (ws_vars benchModel_workspace !! "ng2")
    with (Some (RooRealVar_setVal (0.1 * IZR nEvents) (RooRealVar_range 0 1000000000))).
  change (ws_vars benchModel_workspace !! "ng3")
    with (Some (RooRealVar_setVal (0.1 * IZR nEvents) (RooRealVar_range 0 10000000000))).
  change (ws_vars benchModel_workspace !! "npol")
    with (Some (RooRealVar_setVal (0.3 * IZR nEvents) (RooRealVar_range 0 10000000000))).
  cbn [var_value RooRealVar_setVal RooRealVar_range var_range]. unfold nEvents.
  rewrite !clip_id by lra.
  repeat (apply (f_equal2 cons); [lra|]). reflexivity.
Qed.


(** After lines 68-85 every variable of the workspace holds a value its
    declaration admits (within the range, or the constant), and the five
    coefficients hold 20000, 30000, 10000, 10000 and 30000: none of the
    [setVal] calls is clipped by a range. *)
Theorem benchModel_configuration :
  admissible benchModel_workspace (parameter_view benchModel_workspace) /\
  map (parameter_view benchModel_workspace) ["ns1"; "ns2"; "ng2"; "ng3"; "npol"]
  = [20000; 30000; 10000; 10000; 30000].
Proof.
  split; [exact benchModel_configured_admissible | exact benchModel_coefficient_values].
Qed.

End BenchFacts.

(** ** The component densities and the mixture *)

Module CoreFacts.
Import Core BenchFacts.

Section Densities.
Variable lgamma : R -> R.






Lemma GammaDist_below_shift (x gamma mu beta : R) :
  x < mu -> GammaDist lgamma x gamma mu beta = 0.
Proof.
  intros Hlt. unfold GammaDist. destruct (Rlt_dec x mu); [reflexivity | contradiction].
Qed.



End Densities.


Lemma admissible_constant (w : RooWorkspace) (params : ParameterView)
    (name : string) (var : RooRealVar) :
  admissible w params -> ws_vars w !! name = Some var ->
  var_constant var = true -> params name = var_value var.
Proof. intros Hadm Hlook Hconst. exact (proj1 (Hadm name var Hlook) Hconst). Qed.


Lemma benchModel_shift_zero (params : ParameterView) :
  admissible benchModel_workspace params -> params "m0" = 0.
Proof.
  intros Hadm.
  exact (admissible_constant benchModel_workspace params "m0" (RooRealVar_const 0)
           Hadm eq_refl eq_refl).
Qed.



(** *** Support of the Gamma component *)

(** C3: a Gamma density evaluated outside its support returns exactly 0 (a
    real number that is neither negative nor undefined): for every shape,
    scale and shift, at every observation below the shift; and for the
    Gamma component of the benchmark, whose shift [m0] is the constant 0, at
    every negative observation under every admissible parameter setting. *)
Theorem gamma_zero_outside_support (lgamma : R -> R) :
  (forall shape scale shift x (params : ParameterView),
      x < params shift ->
      evaluate lgamma (Gamma shape scale shift) x params = 0) /\
  (forall x (params : ParameterView),
      admissible benchModel_workspace params ->
      x < 0 ->
      evaluate lgamma (Gamma "g" "b" "m0") x params = 0).
Proof.
  split.
  - intros shape scale shift x params Hlt. cbn [evaluate].
    now apply GammaDist_below_shift.
  - intros x params Hadm Hneg. cbn [evaluate].
    apply GammaDist_below_shift. rewrite (benchModel_shift_zero params Hadm). exact Hneg.
Qed.

Lemma gamma_zero_outside_support_witness :
  evaluate (fun _ => 0) (Gamma "g" "b" "m0") (-1)
    (parameter_view benchModel_workspace) = 0.
Proof.
  apply (proj2 (gamma_zero_outside_support (fun _ => 0))).
  - exact benchModel_configured_admissible.
  - lra.
Defined.

(** *** Sign of the component densities *)




(** *** The mixture of the benchmark *)





End CoreFacts.

(** ** The reduction to a negative log-likelihood *)

Module ReducerFacts.
Import Core.

Section Floor.
Variable floor : R.









End Floor.


End ReducerFacts.

Module Binary64Facts.
Import PrimFloat.

(** In binary64 the five products are the integers 20000, 30000, 10000,
    10000 and 30000 exactly, and they add up to 100000. *)
Lemma benchModel_coefficients_binary64 :
  Binary64.coefficient_values
  = [20000%float; 30000%float; 10000%float; 10000%float; 30000%float]
  /\ Binary64.sum_left_to_right Binary64.coefficient_values = Binary64.nEvents_double.
Proof. split; vm_compute; reflexivity. Qed.

End Binary64Facts.

Module RunFacts.
Import BenchFacts.

Section Calls.
Context {G : Type}.
Variable generate : string -> list string -> Z -> RooWorkspace -> Process G ->
                    RooDataSet * Process G.
Variable fitTo : string -> list RooCmdArg -> World G -> World G.

Lemma loop_body_fit_args (c : RunConfig_t) (r : Run G) :
  loop_body fitTo (Some c) r = call_fitTo fitTo "model" (fit_args c) r.
Proof. destruct c; reflexivity. Qed.

Lemma iterate_calls (runConfig : option RunConfig_t) (n : nat) :
  forall r : Run G,
    run_calls (iterate fitTo n runConfig r)
    = (run_calls r ++ loop_calls runConfig n)%list.
Proof.
  induction n as [|n IH]; intros r; cbn [iterate].
  - destruct runConfig; cbn [loop_calls repeat]; now rewrite app_nil_r.
  - rewrite IH. destruct runConfig as [c|]; cbn [loop_calls repeat].
    + rewrite loop_body_fit_args. cbn [call_fitTo run_calls].
      now rewrite <- app_assoc.
    + reflexivity.
Qed.

Lemma benchModel_setup_calls (proc : Process G) :
  run_calls (benchModel_setup generate proc) = [CallGenerate "model" ["x"] nEvents].
Proof.
  unfold benchModel_setup.
  now destruct (generate "model" ["x"] nEvents benchModel_workspace proc).
Qed.

(** The calls of a run: one [generate], then one [fitTo] per iteration with
    the arguments of the run configuration. *)
Lemma benchModel_calls (range0 : Z) (iterations : nat) (proc : Process G) :
  run_calls (benchModel generate fitTo range0 iterations proc)
  = CallGenerate "model" ["x"] nEvents :: loop_calls (RunConfig_cast range0) iterations.
Proof.
  unfold benchModel. now rewrite iterate_calls, benchModel_setup_calls.
Qed.

Lemma loop_calls_no_generate (runConfig : option RunConfig_t) (n : nat) :
  List.filter is_generate (loop_calls runConfig n) = [].
Proof.
  destruct runConfig as [c|]; [|reflexivity].
  cbn [loop_calls]. induction n as [|n IH]; [reflexivity|exact IH].
Qed.

End Calls.


Lemma modelGraph_pdfs (w w' : RooWorkspace) (name : string) :
  ws_pdfs w = ws_pdfs w' -> Core.modelGraph w name = Core.modelGraph w' name.
Proof. intros Heq. unfold Core.modelGraph. now rewrite Heq. Qed.

Section Frame.
Context {G : Type}.
Variable generate : string -> list string -> Z -> RooWorkspace -> Process G ->
                    RooDataSet * Process G.
Variable fitTo : string -> list RooCmdArg -> World G -> World G.

(** RooFit's side of the contract: [generate] returns as many events as it
    is asked for, and [fitTo] changes neither the data set nor the p.d.f.
    objects of the workspace (it moves parameter values). *)
Hypothesis generate_count : forall pdf whatVars n w proc,
    (0 <= n)%Z -> Z.of_nat (length (fst (generate pdf whatVars n w proc))) = n.
Hypothesis fitTo_frame : forall pdf args (w : World G),
    world_data (fitTo pdf args w) = world_data w /\
    ws_pdfs (world_ws (fitTo pdf args w)) = ws_pdfs (world_ws w).

Lemma loop_body_frame (runConfig : option RunConfig_t) (r : Run G) :
  world_data (run_world (loop_body fitTo runConfig r)) = world_data (run_world r) /\
  ws_pdfs (world_ws (run_world (loop_body fitTo runConfig r)))
  = ws_pdfs (world_ws (run_world r)).
Proof.
  destruct runConfig as [[| |]|]; cbn [loop_body call_fitTo run_world];
    solve [apply fitTo_frame | split; reflexivity].
Qed.

Lemma iterate_frame (runConfig : option RunConfig_t) (n : nat) :
  forall r : Run G,
    world_data (run_world (iterate fitTo n runConfig r)) = world_data (run_world r) /\
    ws_pdfs (world_ws (run_world (iterate fitTo n runConfig r)))
    = ws_pdfs (world_ws (run_world r)).
Proof.
  induction n as [|n IH]; intros r; cbn [iterate].
  - split; reflexivity.
  - destruct (IH (loop_body fitTo runConfig r)) as [Hdata Hpdfs].
    destruct (loop_body_frame runConfig r) as [Hdata' Hpdfs'].
    split; congruence.
Qed.

Lemma benchModel_setup_world (proc : Process G) :
  world_data (run_world (benchModel_setup generate proc))
  = fst (generate "model" ["x"] nEvents benchModel_workspace proc) /\
  world_ws (run_world (benchModel_setup generate proc)) = benchModel_workspace.
Proof.
  unfold benchModel_setup.
  destruct (generate "model" ["x"] nEvents benchModel_workspace proc).
  split; reflexivity.
Qed.

(** C8: in a run of benchModel the data set is generated exactly once, by
    the call that precedes the loop and asks for [nEvents] = 100000 events;
    for every run configuration and every number of iterations of the loop
    the data set at the end is still the generated one, of length 100000,
    and the p.d.f. objects of the workspace, hence the mixture graph of
    [model], are those the factory calls built. *)
Theorem benchModel_data_generated_once
    (range0 : Z) (iterations : nat) (proc : Process G) :
  let r := benchModel generate fitTo range0 iterations proc in
  let data := fst (generate "model" ["x"] nEvents benchModel_workspace proc) in
  nEvents = 100000%Z /\
  run_calls r
  = CallGenerate "model" ["x"] nEvents :: loop_calls (RunConfig_cast range0) iterations /\
  count_generate (run_calls r) = 1%nat /\
  world_data (run_world r) = data /\
  Z.of_nat (length (world_data (run_world r))) = 100000%Z /\
  ws_pdfs (world_ws (run_world r)) = ws_pdfs benchModel_workspace /\
  Core.modelGraph (world_ws (run_world r)) "model" = Some benchModel_model.
Proof.
  intros r data.
  assert (Hcalls : run_calls r
                   = CallGenerate "model" ["x"] nEvents
                     :: loop_calls (RunConfig_cast range0) iterations)
    by apply benchModel_calls.
  assert (Hd : world_data (run_world r) = data).
  { unfold r, data, benchModel.
    rewrite (proj1 (iterate_frame _ _ _)). apply benchModel_setup_world. }
  assert (Hpdfs : ws_pdfs (world_ws (run_world r)) = ws_pdfs benchModel_workspace).
  { unfold r, benchModel.
    rewrite (proj2 (iterate_frame _ _ _)).
    now rewrite (proj2 (benchModel_setup_world proc)). }
  repeat split.
  - exact Hcalls.
  - unfold count_generate. rewrite Hcalls. cbn [List.filter is_generate].
    now rewrite loop_calls_no_generate.
  - exact Hd.
  - rewrite Hd. unfold data. now rewrite generate_count.
  - exact Hpdfs.
  - rewrite (modelGraph_pdfs _ benchModel_workspace "model" Hpdfs).
    exact benchModel_workspace_model.
Qed.

End Frame.

Lemma benchModel_data_generated_once_witness :
  let r := benchModel toy_generate toy_fitTo 1 3 (mkProcess 7%Z) in
  nEvents = 100000%Z /\
  run_calls r
  = CallGenerate "model" ["x"] nEvents :: loop_calls (RunConfig_cast 1) 3 /\
  count_generate (run_calls r) = 1%nat /\
  world_data (run_world r)
  = fst (toy_generate "model" ["x"] nEvents benchModel_workspace (mkProcess 7%Z)) /\
  Z.of_nat (length (world_data (run_world r))) = 100000%Z /\
  ws_pdfs (world_ws (run_world r)) = ws_pdfs benchModel_workspace /\
  Core.modelGraph (world_ws (run_world r)) "model" = Some benchModel_model.
Proof.
  apply (benchModel_data_generated_once toy_generate toy_fitTo).
  - intros pdf whatVars n w proc Hn. unfold toy_generate. cbn [fst].
    rewrite repeat_length. now apply Z2Nat.id.
  - intros pdf args w. split; reflexivity.
Defined.

(** *** The accelerator benchmark is compiled in or left out *)

(** Without the accelerator backend, asking for [fit_CUDA] finds no
    benchmark of that name; nothing is reported. *)
Lemma fit_CUDA_not_registered_without_cuda :
  request false "fit_CUDA" = NotRegistered /\
  request false "fit_CUDA" <> StrategyUnavailableError.
Proof. split; [reflexivity | discriminate]. Qed.

(** C4 (amended): the accelerator benchmark is gated at compile time.
    Without [R__HAS_CUDA] the registered benchmarks are [fit_Scalar] and
    [fit_CPU] only, a request for [fit_CUDA] finds nothing, and no request
    ever yields [StrategyUnavailableError]; a benchmark with the run
    configuration [fitCuda] is registered exactly when [R__HAS_CUDA] is
    defined.  Every registered benchmark passes to [fitTo], at each
    iteration, the arguments of its own run configuration, whose batch mode
    is none for [fitScalar], "cpu" for [fitCpu] and "cuda" for [fitCuda]:
    no strategy is replaced by another. *)
Theorem accelerator_gated_at_compile_time :
  registered false
  = [ mkBenchmark "fit_Scalar" kMillisecond [0%Z];
      mkBenchmark "fit_CPU" kMillisecond [1%Z] ] /\
  request false "fit_CUDA" = NotRegistered /\
  (forall R__HAS_CUDA name, request R__HAS_CUDA name <> StrategyUnavailableError) /\
  (forall R__HAS_CUDA,
      (exists b, In b (registered R__HAS_CUDA) /\
                 RunConfig_cast (range0 b) = Some fitCuda)
      <-> R__HAS_CUDA = true) /\
  (forall R__HAS_CUDA b,
      In b (registered R__HAS_CUDA) ->
      exists c,
        RunConfig_cast (range0 b) = Some c /\
        batchMode_of (fit_args c) = batchMode_for c /\
        forall (G : Type) generate fitTo iterations (proc : Process G),
          run_calls (benchModel generate fitTo (range0 b) iterations proc)
          = CallGenerate "model" ["x"] nEvents
            :: repeat (CallFitTo "model" (fit_args c)) iterations).
Proof.
  split; [reflexivity|]. split; [reflexivity|]. split; [|split].
  - intros cuda name. unfold request. destruct (select cuda name); discriminate.
  - intros [|]; split.
    + reflexivity.
    + intros _. exists (mkBenchmark "fit_CUDA" kMillisecond [2%Z]).
      split; [cbn; tauto | reflexivity].
    + intros [b [Hin Hcast]]. cbn in Hin.
      destruct Hin as [<-|[<-|[]]]; discriminate Hcast.
    + discriminate.
  - intros cuda b Hin.
    assert (Hc : exists c, RunConfig_cast (range0 b) = Some c).
    { destruct cuda; cbn in Hin.
      - destruct Hin as [<-|[<-|[<-|[]]]]; eexists; reflexivity.
      - destruct Hin as [<-|[<-|[]]]; eexists; reflexivity. }
    destruct Hc as [c Hc]. exists c. split; [exact Hc|]. split.
    + destruct c; reflexivity.
    + intros G generate fitTo iterations proc.
      rewrite benchModel_calls, Hc. reflexivity.
Qed.

Lemma accelerator_gated_at_compile_time_witness :
  exists c,
    RunConfig_cast (range0 (mkBenchmark "fit_CPU" kMillisecond [1%Z])) = Some c /\
    batchMode_of (fit_args c) = batchMode_for c /\
    forall (G : Type) generate fitTo iterations (proc : Process G),
      run_calls (benchModel generate fitTo
                   (range0 (mkBenchmark "fit_CPU" kMillisecond [1%Z])) iterations proc)
      = CallGenerate "model" ["x"] nEvents
        :: repeat (CallFitTo "model" (fit_args c)) iterations.
Proof.
  apply (proj2 (proj2 (proj2 (proj2 accelerator_gated_at_compile_time))) false).
  cbn. tauto.
Defined.

End RunFacts.

(** ** More on randomiseParameters *)

Module RandomiseMore.
Import RandomiseFacts.

Section Composition.
Context {G P : Type} `{TRandom G} `{RooAbsRealLValue P}.

Lemma randomise_loop_app (front back : list P) :
  forall random : G,
    randomise_loop (front ++ back) random
    = (fst (randomise_loop front random)
       ++ fst (randomise_loop back (snd (randomise_loop front random))),
       snd (randomise_loop back (snd (randomise_loop front random))))%list.
Proof.
  induction front as [|par rest IH]; intros random.
  - cbn [app randomise_loop fst snd]. now destruct (randomise_loop back random).
  - cbn [app randomise_loop].
    destruct (Uniform random) as [uni random1].
    rewrite (IH random1).
    destruct (randomise_loop rest random1) as [rest1 random2].
    reflexivity.
Qed.

(** The loop works through the set in order, one draw each: randomising
    [front ++ back] with some seed gives [front] the values it gets when
    randomised alone with that seed, and gives [back] the values of a call
    with the default seed 0 made right after it; the generator ends in the
    same state.  What is assigned to a parameter does not depend on the
    parameters that follow it. *)
Theorem randomiseParameters_app
    (front back : list P) (seed : Z) (proc : Process G) :
  randomiseParameters (front ++ back) seed proc
  = (fst (randomiseParameters front seed proc)
     ++ fst (randomiseParameters back 0 (snd (randomiseParameters front seed proc))),
     snd (randomiseParameters back 0 (snd (randomiseParameters front seed proc))))%list.
Proof.
  unfold randomiseParameters. cbn [Z.eqb].
  set (random := if (seed =? 0)%Z then _ else _).
  rewrite (randomise_loop_app front back random).
  destruct (randomise_loop front random) as [front1 random1].
  cbn [fst snd randomGenerator _theGenerator].
  now destruct (randomise_loop back random1) as [back1 random2].
Qed.

End Composition.

Section Values.
Context {G P : Type} `{UniformLaw G} `{RooAbsRealLValueLaws P}.

Lemma randomise_loop_same_bounds (parameters others : list P) :
  Forall2 same_bounds parameters others ->
  forall random : G,
    map getVal (fst (randomise_loop parameters random))
    = map getVal (fst (randomise_loop others random)) /\
    snd (randomise_loop parameters random) = snd (randomise_loop others random).
Proof.
  induction 1 as [|par other rest rest2 Hpar Hrest IH]; intros random.
  - split; reflexivity.
  - cbn [randomise_loop].
    pose proof (Uniform_range random) as Huni.
    destruct (Uniform random) as [uni random1]. cbn [fst] in Huni.
    specialize (IH random1).
    destruct (randomise_loop rest random1) as [out random2].
    destruct (randomise_loop rest2 random1) as [out2 random3].
    cbn [fst snd map] in *. destruct IH as [Hvals Hgen].
    destruct Hpar as (Hmin & Hmax & Hle).
    split; [|exact Hgen]. f_equal; [|exact Hvals].
    rewrite !getVal_setVal.
    + now rewrite Hmin, Hmax.
    + apply segment_within; [exact Huni | now rewrite <- Hmin, <- Hmax].
    + now apply segment_within.
Qed.

Lemma randomiseParameters_same_bounds
    (parameters others : list P) (seed : Z) (proc : Process G) :
  Forall2 same_bounds parameters others ->
  map getVal (fst (randomiseParameters parameters seed proc))
  = map getVal (fst (randomiseParameters others seed proc)) /\
  snd (randomiseParameters parameters seed proc)
  = snd (randomiseParameters others seed proc).
Proof.
  intros Hbounds. unfold randomiseParameters.
  set (random := if (seed =? 0)%Z then _ else _).
  destruct (randomise_loop_same_bounds parameters others Hbounds random)
    as [Hvals Hgen].
  destruct (randomise_loop parameters random) as [out random1].
  destruct (randomise_loop others random) as [out2 random2].
  cbn [fst snd] in *. split; [exact Hvals | now rewrite Hgen].
Qed.

(** The values randomiseParameters assigns depend on the bounds of the
    parameters and on the generator, not on the values the parameters hold
    before the call: two sets with the same ordered bounds, position by
    position, receive the same values and leave the generator in the same
    state. *)
Theorem randomiseParameters_ignores_values
    (parameters others : list P) (seed : Z) (proc : Process G) :
  Forall2 same_bounds parameters others ->
  map getVal (fst (randomiseParameters parameters seed proc))
  = map getVal (fst (randomiseParameters others seed proc)) /\
  snd (randomiseParameters parameters seed proc)
  = snd (randomiseParameters others seed proc).
Proof. apply randomiseParameters_same_bounds. Qed.

Lemma randomised_same_bounds (parameters others : list P) :
  Forall (fun par => getMin par <= getMax par) parameters ->
  Forall2 randomised parameters others ->
  Forall2 same_bounds parameters others.
Proof.
  intros Hle Hrand. induction Hrand as [|par other rest rest2 Hpar Hrest IH].
  - constructor.
  - inversion Hle as [|? ? Hpar_le Hrest_le]; subst.
    constructor; [|now apply IH].
    destruct Hpar as (Hmin & Hmax & _). now repeat split.
Qed.

Context `{!SeedLaw G}.

(** Randomising again with the same nonzero seed changes nothing: when
    every parameter has ordered bounds, a second call on the result of the
    first, from any state of the generator, assigns each parameter the
    value it already holds. *)
Theorem randomiseParameters_seeded_idempotent
    (parameters : list P) (seed : Z) (proc proc2 : Process G) :
  seed <> 0%Z ->
  Forall (fun par => getMin par <= getMax par) parameters ->
  map getVal
    (fst (randomiseParameters (fst (randomiseParameters parameters seed proc))
            seed proc2))
  = map getVal (fst (randomiseParameters parameters seed proc)).
Proof.
  intros Hseed Hle.
  assert (Hbounds : Forall2 same_bounds parameters
                      (fst (randomiseParameters parameters seed proc))).
  { apply randomised_same_bounds; [exact Hle|].
    unfold randomiseParameters.
    set (random := if (seed =? 0)%Z then _ else _).
    pose proof (randomise_loop_randomised parameters random) as Hloop.
    now destruct (randomise_loop parameters random). }
  destruct (randomiseParameters_same_bounds _ _ seed proc2 Hbounds) as [Hvals _].
  rewrite <- Hvals. clear Hvals Hbounds.
  unfold randomiseParameters.
  destruct (Z.eqb_spec seed 0) as [Heq|_]; [contradiction|].
  now rewrite (SetSeed_resets seed (randomGenerator proc2) (randomGenerator proc) Hseed).
Qed.

End Values.

Section Degenerate.
Context {G P : Type} `{TRandom G} `{RooAbsRealLValueLaws P}.

Lemma randomise_loop_fixed (parameters : list P) :
  forall random : G,
    Forall2 (fun par out => getMin par = getMax par -> getVal out = getMin par)
      parameters (fst (randomise_loop parameters random)).
Proof.
  induction parameters as [|par rest IH]; intros random; cbn [randomise_loop].
  - constructor.
  - destruct (Uniform random) as [uni random1].
    specialize (IH random1).
    destruct (randomise_loop rest random1) as [out random2]. cbn [fst] in *.
    constructor; [|exact IH].
    intros Heq. rewrite getVal_setVal; rewrite <- Heq; lra.
Qed.

(** A parameter whose minimum equals its maximum is set to that bound,
    whatever the generator draws (no assumption on the draw is needed). *)
Theorem randomiseParameters_fixed
    (parameters : list P) (seed : Z) (proc : Process G) :
  Forall2 (fun par out => getMin par = getMax par -> getVal out = getMin par)
    parameters (fst (randomiseParameters parameters seed proc)).
Proof.
  unfold randomiseParameters.
  set (random := if (seed =? 0)%Z then _ else _).
  pose proof (randomise_loop_fixed parameters random) as Hloop.
  now destruct (randomise_loop parameters random).
Qed.

End Degenerate.

Lemma randomiseParameters_ignores_values_witness :
  map getVal (fst (randomiseParameters [mkRangedVar 0 0 1; mkRangedVar 3 2 4] 0
                     (mkProcess 5%Z)))
  = map getVal (fst (randomiseParameters [mkRangedVar 1 0 1; mkRangedVar 2 2 4] 0
                       (mkProcess 5%Z)))
  /\ snd (randomiseParameters [mkRangedVar 0 0 1; mkRangedVar 3 2 4] 0 (mkProcess 5%Z))
     = snd (randomiseParameters [mkRangedVar 1 0 1; mkRangedVar 2 2 4] 0 (mkProcess 5%Z)).
Proof.
  apply (randomiseParameters_ignores_values (G := Z) (P := RangedVar)).
  repeat constructor; cbn; lra.
Defined.

Lemma randomiseParameters_seeded_idempotent_witness :
  map getVal
    (fst (randomiseParameters
            (fst (randomiseParameters [mkRangedVar 0 0 1; mkRangedVar 3 2 4] 1337
                    (mkProcess 5%Z)))
            1337 (mkProcess 9%Z)))
  = map getVal (fst (randomiseParameters [mkRangedVar 0 0 1; mkRangedVar 3 2 4] 1337
                       (mkProcess 5%Z))).
Proof.
  apply (randomiseParameters_seeded_idempotent (G := Z) (P := RangedVar)).
  - discriminate.
  - repeat constructor; cbn; lra.
Defined.

Lemma randomiseParameters_fixed_witness :
  Forall2 (fun par out => getMin par = getMax par -> getVal out = getMin par)
    [mkRangedVar 0 2 2; mkRangedVar 3 2 4]
    (fst (randomiseParameters [mkRangedVar 0 2 2; mkRangedVar 3 2 4] 0 (mkProcess 5%Z))).
Proof.
  exact (randomiseParameters_fixed (G := Z) (P := RangedVar)
           [mkRangedVar 0 2 2; mkRangedVar 3 2 4] 0 (mkProcess 5%Z)).
Defined.

End RandomiseMore.

(** ** More on benchModel and the registered benchmarks *)

Module RunMore.
Import BenchFacts RunFacts.

Section Loop.
Context {G : Type}.
Variable generate : string -> list string -> Z -> RooWorkspace -> Process G ->
                    RooDataSet * Process G.
Variable fitTo : string -> list RooCmdArg -> World G -> World G.

Lemma iterate_add (runConfig : option RunConfig_t) (m n : nat) :
  forall r : Run G,
    iterate fitTo (m + n) runConfig r
    = iterate fitTo n runConfig (iterate fitTo m runConfig r).
Proof.
  induction m as [|m IH]; intros r; cbn [Nat.add iterate]; [reflexivity | apply IH].
Qed.

Lemma iterate_last (runConfig : option RunConfig_t) (n : nat) (r : Run G) :
  iterate fitTo (S n) runConfig r = loop_body fitTo runConfig (iterate fitTo n runConfig r).
Proof.
  replace (S n) with (n + 1)%nat by lia. now rewrite iterate_add.
Qed.

(** The iterations of the timed loop are chained.  A run of [m + n]
    iterations is a run of [m] iterations followed by [n] more on the state
    it left, and each iteration hands [fitTo] the world the previous one
    returned: the data set is not regenerated and the parameters are not
    reset between two fits. *)
Theorem benchModel_iterations_chain
    (range0 : Z) (m n : nat) (proc : Process G) :
  benchModel generate fitTo range0 (m + n) proc
  = iterate fitTo n (RunConfig_cast range0) (benchModel generate fitTo range0 m proc) /\
  run_world (benchModel generate fitTo range0 (S n) proc)
  = match RunConfig_cast range0 with
    | Some c => fitTo "model" (fit_args c)
                  (run_world (benchModel generate fitTo range0 n proc))
    | None => run_world (benchModel generate fitTo range0 n proc)
    end.
Proof.
  unfold benchModel. split.
  - apply iterate_add.
  - rewrite iterate_last. destruct (RunConfig_cast range0) as [c|].
    + now rewrite loop_body_fit_args.
    + reflexivity.
Qed.



(** Every [fitTo] call of a run is made on [model] with the minimizer
    "Minuit2" and the print level -1; the calls of the three run
    configurations differ in the batch mode only, which is the one of the
    run's own configuration. *)
Theorem benchModel_fits_differ_in_batchMode_only
    (range0 : Z) (iterations : nat) (proc : Process G)
    (pdf : string) (args : list RooCmdArg) :
  In (CallFitTo pdf args) (run_calls (benchModel generate fitTo range0 iterations proc)) ->
  pdf = "model" /\
  without_batchMode args = [Minimizer "Minuit2"; PrintLevel (-1)] /\
  exists c, RunConfig_cast range0 = Some c /\ batchMode_of args = batchMode_for c.
Proof.
  rewrite benchModel_calls. intros [Hhead|Hloop]; [discriminate Hhead|].
  destruct (RunConfig_cast range0) as [c|]; cbn [loop_calls] in Hloop; [|contradiction].
  apply repeat_spec in Hloop. injection Hloop as -> ->.
  split; [reflexivity|]. split.
  - destruct c; reflexivity.
  - exists c. split; [reflexivity | destruct c; reflexivity].
Qed.

End Loop.


Lemma benchModel_fits_differ_in_batchMode_only_witness :
  "model" = "model" /\
  without_batchMode [BatchMode "cuda"; Minimizer "Minuit2"; PrintLevel (-1)]
  = [Minimizer "Minuit2"; PrintLevel (-1)] /\
  exists c, RunConfig_cast 2 = Some c /\
            batchMode_of [BatchMode "cuda"; Minimizer "Minuit2"; PrintLevel (-1)]
            = batchMode_for c.
Proof.
  apply (benchModel_fits_differ_in_batchMode_only toy_generate toy_fitTo 2 2
           (mkProcess 1%Z)).
  rewrite benchModel_calls. cbn. tauto.
Defined.


(** The registered benchmarks have pairwise distinct names and pairwise
    distinct run configurations, all report in milliseconds, each is found
    under its own name, and defining [R__HAS_CUDA] only adds a benchmark:
    those registered without it are registered with it. *)
Theorem registered_well_formed (R__HAS_CUDA : bool) :
  List.NoDup (List.map bm_name (registered R__HAS_CUDA)) /\
  List.NoDup (List.map range0 (registered R__HAS_CUDA)) /\
  (forall b, In b (registered R__HAS_CUDA) ->
             bm_unit b = kMillisecond /\
             select R__HAS_CUDA (bm_name b) = Some b /\
             exists c, bm_args b = [RunConfig_value c]) /\
  incl (registered false) (registered R__HAS_CUDA).
Proof.
  split; [|split; [|split]].
  - destruct R__HAS_CUDA; cbn;
      repeat (constructor; [cbn; intuition discriminate|]); constructor.
  - destruct R__HAS_CUDA; cbn;
      repeat (constructor; [cbn; intuition discriminate|]); constructor.
  - intros b Hin. destruct R__HAS_CUDA; cbn in Hin.
    + destruct Hin as [<-|[<-|[<-|[]]]];
        (split; [reflexivity|]; split; [reflexivity|]);
        [exists fitScalar | exists fitCpu | exists fitCuda]; reflexivity.
    + destruct Hin as [<-|[<-|[]]];
        (split; [reflexivity|]; split; [reflexivity|]);
        [exists fitScalar | exists fitCpu]; reflexivity.
  - destruct R__HAS_CUDA; intros b Hin; cbn in *; tauto.
Qed.

End RunMore.

(** ** The names the workspace resolves *)

Module WorkspaceMore.

Lemma benchModel_workspace_pdfs :
  ws_pdfs benchModel_workspace = list_to_map benchModel_pdfs.
Proof. reflexivity. Qed.

(** No lookup of benchModel comes back empty.  The names it dereferences
    without a check, the five coefficients of lines 81-85, the p.d.f.
    [model] and the variable [x] of lines 87-88, are all in the workspace;
    every variable and every component a declared p.d.f. refers to is
    declared; and the workspace holds 16 variables and 6 p.d.f.s, as many
    as the factory strings declare, so no declaration replaced another. *)
Theorem benchModel_workspace_resolved :
  Forall (fun name => is_Some (ws_vars benchModel_workspace !! name))
    ["ns1"; "ns2"; "ng2"; "ng3"; "npol"; "x"] /\
  is_Some (ws_pdfs benchModel_workspace !! "model") /\
  (forall name pdf,
      ws_pdfs benchModel_workspace !! name = Some pdf ->
      Forall (fun v => is_Some (ws_vars benchModel_workspace !! v)) (pdf_variables pdf) /\
      Forall (fun p => is_Some (ws_pdfs benchModel_workspace !! p)) (pdf_components pdf)) /\
  size (ws_vars benchModel_workspace) = 16%nat /\
  size (ws_pdfs benchModel_workspace) = 6%nat.
Proof.
  split; [|split; [|split; [|split]]].
  - repeat (constructor; [eexists; reflexivity|]). constructor.
  - eexists; reflexivity.
  - intros name pdf Hlook. rewrite benchModel_workspace_pdfs in Hlook.
    apply elem_of_list_to_map_2 in Hlook. unfold benchModel_pdfs in Hlook.
    repeat (apply elem_of_cons in Hlook as [[= -> ->]|Hlook];
            [split; cbn [pdf_variables pdf_components List.map fst snd];
             repeat (constructor; [eexists; reflexivity|]); constructor|]).
    now apply elem_of_nil in Hlook.
  - reflexivity.
  - reflexivity.
Qed.

End WorkspaceMore.

(** ** Line 51 in binary64 *)

Module Binary64More.
Import PrimFloat Binary64Randomise.

(** In binary64 the value randomiseParameters hands to [setVal] can leave
    the bounds: there are finite bounds [min <= max] and a draw strictly
    between 0 and 1 for which [max - min] overflows and
    [min + uni * (max - min)] is plus infinity, above [max].  From there on
    the bound is kept by [setVal] alone. *)
Theorem randomised_value_overflow :
  exists min max uni : float,
    is_finite min = true /\ is_finite max = true /\
    (min <=? max)%float = true /\
    (0 <? uni)%float = true /\ (uni <? 1)%float = true /\
    (max <? randomised_value min max uni)%float = true /\
    is_infinity (randomised_value min max uni) = true.
Proof.
  exists (-0x1p1023)%float, 0x1p1023%float, 0.5%float.
  repeat split; vm_compute; reflexivity.
Qed.

End Binary64More.
